(** * ADLX_3DSettings: the flat exports over the vendor's 3D-settings service

    A shallow embedding of [ADLX_Wrapper_Source/ADLX_3DSettings/ADLX_3DSettings.cpp].
    The wrapper is a sequence of calls into the vendor layer (ADLX) that
    threads two pieces of process state: the helper singleton and the
    flag [g_bInitialized].  The vendor layer is modelled as an instrumented
    fake: a record of the responses it gives, together with a log of every
    call it received.  The wrapper functions are written in a small state
    monad over that world, statement by statement as in the source. *)

From Stdlib Require Import ZArith List Bool String Lia.
Import ListNotations.
Open Scope Z_scope.

(** ** The vendor layer *)

Module ADLX.

(** Modelled from the spec: the vendor's status codes and the two macros
    that classify them ([ADLXDefines.h] of the vendor SDK is included by the
    source but is not part of it).  The spec speaks of the vendor's
    "documented success/failure status codes"; the enumerators and the three
    codes that count as success are the SDK's. *)
Inductive ADLX_RESULT : Type :=
| ADLX_OK
| ADLX_ALREADY_ENABLED
| ADLX_ALREADY_INITIALIZED
| ADLX_FAIL
| ADLX_INVALID_ARGS
| ADLX_BAD_VER
| ADLX_UNKNOWN_INTERFACE
| ADLX_TERMINATED
| ADLX_ADL_INIT_ERROR
| ADLX_NOT_FOUND
| ADLX_INVALID_OBJECT
| ADLX_ORPHAN_OBJECTS
| ADLX_NOT_SUPPORTED
| ADLX_PENDING_OPERATION
| ADLX_GPU_INACTIVE.

Definition ADLX_SUCCEEDED (x : ADLX_RESULT) : bool :=
  match x with
  | ADLX_OK | ADLX_ALREADY_ENABLED | ADLX_ALREADY_INITIALIZED => true
  | _ => false
  end.

Definition ADLX_FAILED (x : ADLX_RESULT) : bool :=
  match x with
  | ADLX_OK | ADLX_ALREADY_ENABLED | ADLX_ALREADY_INITIALIZED => false
  | _ => true
  end.

(** The feature interfaces of the 3D-settings service.  The source names
    three getters ([GetRadeonSuperResolution], [GetFrameRateTargetControl],
    [GetAntiLag]); AMD Fluid Motion Frames is the fourth feature the spec
    names, with an interface of its own on the vendor side. *)
Inductive Feature : Type :=
| RadeonSuperResolution
| FrameRateTargetControl
| AntiLag
| AMDFluidMotionFrames.

(** The reference-counted handle types a call can acquire. *)
Inductive HandleKind : Type :=
| KGPUList
| KGPU
| K3DSettingsServices
| KFeature (f : Feature).

Definition Feature_eqb (f g : Feature) : bool :=
  match f, g with
  | RadeonSuperResolution, RadeonSuperResolution
  | FrameRateTargetControl, FrameRateTargetControl
  | AntiLag, AntiLag
  | AMDFluidMotionFrames, AMDFluidMotionFrames => true
  | _, _ => false
  end.

Definition HandleKind_eqb (k l : HandleKind) : bool :=
  match k, l with
  | KGPUList, KGPUList | KGPU, KGPU
  | K3DSettingsServices, K3DSettingsServices => true
  | KFeature f, KFeature g => Feature_eqb f g
  | _, _ => false
  end.

(** A pointer is [None] when it is [nullptr]. *)
Definition ptr (T : Type) : Type := option T.
Definition nullptr {T : Type} : ptr T := None.

(** The objects behind the handles.  An adapter has an identity and
    properties of its own; the wrapper never reads them. *)
Record IADLXGPU : Type := { UniqueId : Z; Name : string }.
Definition IADLXGPUList : Type := list IADLXGPU.
Inductive IADLXSystem : Type := SystemServices.
Inductive IADLX3DSettingsServices : Type := Services3D.
Inductive IADLX3DRadeonSuperResolution : Type := RSRInterface.
Inductive IADLX3DFrameRateTargetControl : Type := FRTCInterface.
Inductive IADLX3DAntiLag : Type := AntiLagInterface.

(** What the vendor answers for one feature: the status and the handle of
    its getter, the status of the enabled query and of the enabled write,
    and the enabled flag itself. *)
Record FeatureState : Type := {
  fs_status : ADLX_RESULT;
  fs_handle : bool;
  fs_IsEnabled : ADLX_RESULT;
  fs_SetEnabled : ADLX_RESULT;
  fs_enabled : bool
}.

(** Modelled from the spec: the vendor component system is outside the
    source ("an opaque dependency"); it is taken as the spec's fake vendor
    layer.  The vendor state holds one response per entry point the wrapper
    uses.  A getter answers with a status and a handle, independently of each
    other, so that a failed status with a non-null handle can be induced. *)
Record Vendor : Type := {
  v_Initialize : ADLX_RESULT;
  v_system : bool;
  v_GetGPUs : ADLX_RESULT;
  v_gpus : ptr IADLXGPUList;
  v_At : ADLX_RESULT;
  v_Get3DSettingsServices : ADLX_RESULT;
  v_services : bool;
  v_rsr : FeatureState;
  v_frtc : FeatureState;
  v_antilag : FeatureState;
  v_afmf : FeatureState;
  v_GetSharpness : ADLX_RESULT;
  v_SetSharpness : ADLX_RESULT;
  v_sharpness : Z
}.

Definition feature (v : Vendor) (f : Feature) : FeatureState :=
  match f with
  | RadeonSuperResolution => v_rsr v
  | FrameRateTargetControl => v_frtc v
  | AntiLag => v_antilag v
  | AMDFluidMotionFrames => v_afmf v
  end.

Definition fs_set_enabled (b : bool) (s : FeatureState) : FeatureState :=
  {| fs_status := fs_status s; fs_handle := fs_handle s;
     fs_IsEnabled := fs_IsEnabled s; fs_SetEnabled := fs_SetEnabled s;
     fs_enabled := b |}.

Definition set_feature (f : Feature) (s : FeatureState) (v : Vendor) : Vendor :=
  {| v_Initialize := v_Initialize v; v_system := v_system v;
     v_GetGPUs := v_GetGPUs v; v_gpus := v_gpus v; v_At := v_At v;
     v_Get3DSettingsServices := v_Get3DSettingsServices v;
     v_services := v_services v;
     v_rsr := if Feature_eqb f RadeonSuperResolution then s else v_rsr v;
     v_frtc := if Feature_eqb f FrameRateTargetControl then s else v_frtc v;
     v_antilag := if Feature_eqb f AntiLag then s else v_antilag v;
     v_afmf := if Feature_eqb f AMDFluidMotionFrames then s else v_afmf v;
     v_GetSharpness := v_GetSharpness v; v_SetSharpness := v_SetSharpness v;
     v_sharpness := v_sharpness v |}.

Definition set_sharpness (n : Z) (v : Vendor) : Vendor :=
  {| v_Initialize := v_Initialize v; v_system := v_system v;
     v_GetGPUs := v_GetGPUs v; v_gpus := v_gpus v; v_At := v_At v;
     v_Get3DSettingsServices := v_Get3DSettingsServices v;
     v_services := v_services v;
     v_rsr := v_rsr v; v_frtc := v_frtc v; v_antilag := v_antilag v;
     v_afmf := v_afmf v;
     v_GetSharpness := v_GetSharpness v; v_SetSharpness := v_SetSharpness v;
     v_sharpness := n |}.

(** The log of the fake: one event per call that reached the vendor layer. *)
Inductive Event : Type :=
| EInitialize (res : ADLX_RESULT)
| EGetSystemServices
| EGet (k : HandleKind) (res : ADLX_RESULT) (nonnull : bool)
| ERelease (k : HandleKind)
| EIsEnabled (f : Feature)
| ESetEnabled (f : Feature) (b : bool)
| EGetSharpness
| ESetSharpness (n : Z).

(** The world a call runs in: the vendor, the wrapper's flag, and the log
    (most recent call first). *)
Record World : Type := {
  vendor : Vendor;
  g_bInitialized : bool;
  calls : list Event
}.

(** A process that has just loaded the library. *)
Definition start (v : Vendor) : World :=
  {| vendor := v; g_bInitialized := false; calls := [] |}.

(** *** The state monad of the wrapper *)

Definition M (A : Type) : Type := World -> A * World.

Definition ret {A : Type} (a : A) : M A := fun w => (a, w).

Definition bind {A B : Type} (m : M A) (k : A -> M B) : M B :=
  fun w => let (a, w') := m w in k a w'.

Definition log (e : Event) : M unit :=
  fun w => (tt, {| vendor := vendor w; g_bInitialized := g_bInitialized w;
                   calls := e :: calls w |}).

Definition ask {A : Type} (q : Vendor -> A) : M A :=
  fun w => (q (vendor w), w).

Definition mutate (u : Vendor -> Vendor) : M unit :=
  fun w => (tt, {| vendor := u (vendor w); g_bInitialized := g_bInitialized w;
                   calls := calls w |}).

Definition read_g_bInitialized : M bool :=
  fun w => (g_bInitialized w, w).

Definition write_g_bInitialized (b : bool) : M unit :=
  fun w => (tt, {| vendor := vendor w; g_bInitialized := b; calls := calls w |}).

Declare Scope adlx_scope.
Delimit Scope adlx_scope with adlx.
Notation "x <- m ;; k" := (bind m (fun x => k))
  (at level 61, m at next level, right associativity) : adlx_scope.
Notation "' pat <- m ;; k" := (bind m (fun x => match x with pat => k end))
  (at level 61, pat pattern, m at next level, right associativity) : adlx_scope.
Notation "m ;; k" := (bind m (fun _ => k))
  (at level 61, right associativity) : adlx_scope.
Open Scope adlx_scope.

(** *** The entry points of the vendor layer

    Each entry point answers from the vendor state and leaves one event in
    the log.  A call that fails leaves its out-parameter as the caller
    initialized it, and a write that fails is not applied. *)

(** Every interface derives from the reference-counted base interface. *)
Class IADLXInterface (T : Type) : Type := { kind : HandleKind }.
Arguments kind T {_}.

#[export] Instance GPUList_interface : IADLXInterface IADLXGPUList :=
  {| kind := KGPUList |}.
#[export] Instance GPU_interface : IADLXInterface IADLXGPU :=
  {| kind := KGPU |}.
#[export] Instance Services_interface : IADLXInterface IADLX3DSettingsServices :=
  {| kind := K3DSettingsServices |}.
#[export] Instance RSR_interface : IADLXInterface IADLX3DRadeonSuperResolution :=
  {| kind := KFeature RadeonSuperResolution |}.
#[export] Instance FRTC_interface : IADLXInterface IADLX3DFrameRateTargetControl :=
  {| kind := KFeature FrameRateTargetControl |}.
#[export] Instance AntiLag_interface : IADLXInterface IADLX3DAntiLag :=
  {| kind := KFeature AntiLag |}.

(** The interfaces that carry an enabled flag. *)
Class Toggle (T : Type) : Type := { toggles : Feature }.
Arguments toggles T {_}.

#[export] Instance RSR_toggle : Toggle IADLX3DRadeonSuperResolution :=
  {| toggles := RadeonSuperResolution |}.
#[export] Instance FRTC_toggle : Toggle IADLX3DFrameRateTargetControl :=
  {| toggles := FrameRateTargetControl |}.
#[export] Instance AntiLag_toggle : Toggle IADLX3DAntiLag :=
  {| toggles := AntiLag |}.

Definition isNonNull {T : Type} (p : ptr T) : bool :=
  match p with Some _ => true | None => false end.

Definition Release {T : Type} `{IADLXInterface T} (h : T) : M unit :=
  log (ERelease (kind T)).

(** [g_ADLXHelper.Initialize()] *)
Definition Initialize : M ADLX_RESULT :=
  res <- ask v_Initialize ;;
  log (EInitialize res) ;;
  ret res.

(** [g_ADLXHelper.GetSystemServices()]: a borrowed pointer, not a
    reference the caller owns. *)
Definition GetSystemServices : M (ptr IADLXSystem) :=
  present <- ask v_system ;;
  log EGetSystemServices ;;
  ret (if present then Some SystemServices else nullptr).

(** [sys->GetGPUs(&gpus)] *)
Definition GetGPUs (sys : IADLXSystem) : M (ADLX_RESULT * ptr IADLXGPUList) :=
  res <- ask v_GetGPUs ;;
  gpus <- ask v_gpus ;;
  log (EGet KGPUList res (isNonNull gpus)) ;;
  ret (res, gpus).

(** [gpus->At(i, &gpu)]: the item comes from the list the call is made on. *)
Definition At (gpus : IADLXGPUList) (i : nat) : M (ADLX_RESULT * ptr IADLXGPU) :=
  res <- ask v_At ;;
  let gpu := nth_error gpus i in
  log (EGet KGPU res (isNonNull gpu)) ;;
  ret (res, gpu).

(** [sys->Get3DSettingsServices(&d3dSettingSrv)] *)
Definition Get3DSettingsServices (sys : IADLXSystem)
  : M (ADLX_RESULT * ptr IADLX3DSettingsServices) :=
  res <- ask v_Get3DSettingsServices ;;
  present <- ask v_services ;;
  log (EGet K3DSettingsServices res present) ;;
  ret (res, if present then Some Services3D else nullptr).

Definition GetFeature {T : Type} (f : Feature) (h : T) : M (ADLX_RESULT * ptr T) :=
  s <- ask (fun v => feature v f) ;;
  log (EGet (KFeature f) (fs_status s) (fs_handle s)) ;;
  ret (fs_status s, if fs_handle s then Some h else nullptr).

(** [d3dSettingSrv->GetRadeonSuperResolution(&rsr)] *)
Definition GetRadeonSuperResolution (srv : IADLX3DSettingsServices)
  : M (ADLX_RESULT * ptr IADLX3DRadeonSuperResolution) :=
  GetFeature RadeonSuperResolution RSRInterface.

(** [d3dSettingSrv->GetFrameRateTargetControl(&afmf)] *)
Definition GetFrameRateTargetControl (srv : IADLX3DSettingsServices)
  : M (ADLX_RESULT * ptr IADLX3DFrameRateTargetControl) :=
  GetFeature FrameRateTargetControl FRTCInterface.

(** [d3dSettingSrv->GetAntiLag(&antiLag)] *)
Definition GetAntiLag (srv : IADLX3DSettingsServices)
  : M (ADLX_RESULT * ptr IADLX3DAntiLag) :=
  GetFeature AntiLag AntiLagInterface.

(** [h->IsEnabled(&enabled)]: the out-parameter is written on success and
    left as it was on failure. *)
Definition IsEnabled {T : Type} `{Toggle T} (h : T) (enabled : bool)
  : M (ADLX_RESULT * bool) :=
  s <- ask (fun v => feature v (toggles T)) ;;
  log (EIsEnabled (toggles T)) ;;
  ret (fs_IsEnabled s,
       if ADLX_SUCCEEDED (fs_IsEnabled s) then fs_enabled s else enabled).

(** [h->SetEnabled(isEnabled)]: the flag changes when the vendor reports
    success; a write the vendor fails is not applied. *)
Definition SetEnabled {T : Type} `{Toggle T} (h : T) (isEnabled : bool)
  : M ADLX_RESULT :=
  s <- ask (fun v => feature v (toggles T)) ;;
  log (ESetEnabled (toggles T) isEnabled) ;;
  (if ADLX_SUCCEEDED (fs_SetEnabled s)
   then mutate (set_feature (toggles T) (fs_set_enabled isEnabled s))
   else ret tt) ;;
  ret (fs_SetEnabled s).

(** [rsr->GetSharpness(&value)] *)
Definition GetSharpness (h : IADLX3DRadeonSuperResolution) (value : Z)
  : M (ADLX_RESULT * Z) :=
  res <- ask v_GetSharpness ;;
  cur <- ask v_sharpness ;;
  log EGetSharpness ;;
  ret (res, if ADLX_SUCCEEDED res then cur else value).

(** [rsr->SetSharpness(sharpness)] *)
Definition SetSharpness (h : IADLX3DRadeonSuperResolution) (sharpness : Z)
  : M ADLX_RESULT :=
  res <- ask v_SetSharpness ;;
  log (ESetSharpness sharpness) ;;
  (if ADLX_SUCCEEDED res then mutate (set_sharpness sharpness) else ret tt) ;;
  ret res.

End ADLX.

(** ** The wrapper *)

Module Wrapper.
Import ADLX.

(** [InitializeADLX]: initialize the vendor root on first use. *)
Definition InitializeADLX : M bool :=
  initialized <- read_g_bInitialized ;;
  if initialized then ret true
  else
    res <- Initialize ;;
    if ADLX_SUCCEEDED res
    then write_g_bInitialized true ;; ret true
    else ret false.

(** [Get3DGraphicsServices]: walk system, adapter list, first adapter, and
    hand the 3D-settings service to the caller. *)
Definition Get3DGraphicsServices : M (ptr IADLX3DSettingsServices) :=
  ok <- InitializeADLX ;;
  if negb ok then ret nullptr
  else
    sys <- GetSystemServices ;;
    match sys with
    | None => ret nullptr
    | Some sys =>
        '(res, gpus) <- GetGPUs sys ;;
        match gpus with
        | None => ret nullptr
        | Some gpus =>
            if ADLX_FAILED res then ret nullptr
            else
              '(res, gpu) <- At gpus 0 ;;
              match gpu with
              | Some gpu =>
                  if ADLX_FAILED res
                  then Release gpus ;; ret nullptr
                  else
                    '(res, d3dSettingSrv) <- Get3DSettingsServices sys ;;
                    Release gpus ;;
                    Release gpu ;;
                    ret d3dSettingSrv
              | None => Release gpus ;; ret nullptr
              end
        end
    end.

(** [if (p != nullptr) p->Release();] *)
Definition ReleaseIfNonNull {T : Type} `{IADLXInterface T} (p : ptr T) : M unit :=
  match p with
  | Some h => Release h
  | None => ret tt
  end.

(** *** RSR (Radeon Super Resolution) *)

Definition HasRSRSupport : M bool :=
  d3dSettingSrv <- Get3DGraphicsServices ;;
  match d3dSettingSrv with
  | None => ret false
  | Some srv =>
      '(res, rsr) <- GetRadeonSuperResolution srv ;;
      let supported := ADLX_SUCCEEDED res && isNonNull rsr in
      ReleaseIfNonNull rsr ;;
      Release srv ;;
      ret supported
  end.

Definition GetRSRState : M bool :=
  d3dSettingSrv <- Get3DGraphicsServices ;;
  match d3dSettingSrv with
  | None => ret false
  | Some srv =>
      '(res, rsr) <- GetRadeonSuperResolution srv ;;
      enabled <- match rsr with
                 | Some h =>
                     if ADLX_SUCCEEDED res
                     then '(_, enabled) <- IsEnabled h false ;; ret enabled
                     else ret false
                 | None => ret false
                 end ;;
      ReleaseIfNonNull rsr ;;
      Release srv ;;
      ret enabled
  end.

Definition SetRSR (isEnabled : bool) : M bool :=
  d3dSettingSrv <- Get3DGraphicsServices ;;
  match d3dSettingSrv with
  | None => ret false
  | Some srv =>
      '(res, rsr) <- GetRadeonSuperResolution srv ;;
      success <- match rsr with
                 | Some h =>
                     if ADLX_SUCCEEDED res
                     then res <- SetEnabled h isEnabled ;; ret (ADLX_SUCCEEDED res)
                     else ret false
                 | None => ret false
                 end ;;
      ReleaseIfNonNull rsr ;;
      Release srv ;;
      ret success
  end.

Definition GetRSRSharpness : M Z :=
  d3dSettingSrv <- Get3DGraphicsServices ;;
  match d3dSettingSrv with
  | None => ret (-1)
  | Some srv =>
      '(res, rsr) <- GetRadeonSuperResolution srv ;;
      sharpness <- match rsr with
                   | Some h =>
                       if ADLX_SUCCEEDED res
                       then
                         '(res, value) <- GetSharpness h 0 ;;
                         if ADLX_SUCCEEDED res then ret value else ret (-1)
                       else ret (-1)
                   | None => ret (-1)
                   end ;;
      ReleaseIfNonNull rsr ;;
      Release srv ;;
      ret sharpness
  end.

Definition SetRSRSharpness (sharpness : Z) : M bool :=
  if (sharpness <? 0) || (sharpness >? 100) then ret false
  else
    d3dSettingSrv <- Get3DGraphicsServices ;;
    match d3dSettingSrv with
    | None => ret false
    | Some srv =>
        '(res, rsr) <- GetRadeonSuperResolution srv ;;
        success <- match rsr with
                   | Some h =>
                       if ADLX_SUCCEEDED res
                       then res <- SetSharpness h sharpness ;; ret (ADLX_SUCCEEDED res)
                       else ret false
                   | None => ret false
                   end ;;
        ReleaseIfNonNull rsr ;;
        Release srv ;;
        ret success
    end.

(** *** AFMF (AMD Fluid Motion Frames) *)

Definition HasAFMFSupport : M bool :=
  d3dSettingSrv <- Get3DGraphicsServices ;;
  match d3dSettingSrv with
  | None => ret false
  | Some srv =>
      '(res, afmf) <- GetFrameRateTargetControl srv ;;
      let supported := ADLX_SUCCEEDED res && isNonNull afmf in
      ReleaseIfNonNull afmf ;;
      Release srv ;;
      ret supported
  end.

Definition GetAFMFState : M bool :=
  d3dSettingSrv <- Get3DGraphicsServices ;;
  match d3dSettingSrv with
  | None => ret false
  | Some srv =>
      '(res, afmf) <- GetFrameRateTargetControl srv ;;
      enabled <- match afmf with
                 | Some h =>
                     if ADLX_SUCCEEDED res
                     then '(_, enabled) <- IsEnabled h false ;; ret enabled
                     else ret false
                 | None => ret false
                 end ;;
      ReleaseIfNonNull afmf ;;
      Release srv ;;
      ret enabled
  end.

Definition SetAFMFState (isEnabled : bool) : M bool :=
  d3dSettingSrv <- Get3DGraphicsServices ;;
  match d3dSettingSrv with
  | None => ret false
  | Some srv =>
      '(res, afmf) <- GetFrameRateTargetControl srv ;;
      success <- match afmf with
                 | Some h =>
                     if ADLX_SUCCEEDED res
                     then res <- SetEnabled h isEnabled ;; ret (ADLX_SUCCEEDED res)
                     else ret false
                 | None => ret false
                 end ;;
      ReleaseIfNonNull afmf ;;
      Release srv ;;
      ret success
  end.

(** *** Anti-Lag *)

Definition HasAntiLagSupport : M bool :=
  d3dSettingSrv <- Get3DGraphicsServices ;;
  match d3dSettingSrv with
  | None => ret false
  | Some srv =>
      '(res, antiLag) <- GetAntiLag srv ;;
      let supported := ADLX_SUCCEEDED res && isNonNull antiLag in
      ReleaseIfNonNull antiLag ;;
      Release srv ;;
      ret supported
  end.

Definition GetAntiLagState : M bool :=
  d3dSettingSrv <- Get3DGraphicsServices ;;
  match d3dSettingSrv with
  | None => ret false
  | Some srv =>
      '(res, antiLag) <- GetAntiLag srv ;;
      enabled <- match antiLag with
                 | Some h =>
                     if ADLX_SUCCEEDED res
                     then '(_, enabled) <- IsEnabled h false ;; ret enabled
                     else ret false
                 | None => ret false
                 end ;;
      ReleaseIfNonNull antiLag ;;
      Release srv ;;
      ret enabled
  end.

Definition SetAntiLagState (isEnabled : bool) : M bool :=
  d3dSettingSrv <- Get3DGraphicsServices ;;
  match d3dSettingSrv with
  | None => ret false
  | Some srv =>
      '(res, antiLag) <- GetAntiLag srv ;;
      success <- match antiLag with
                 | Some h =>
                     if ADLX_SUCCEEDED res
                     then res <- SetEnabled h isEnabled ;; ret (ADLX_SUCCEEDED res)
                     else ret false
                 | None => ret false
                 end ;;
      ReleaseIfNonNull antiLag ;;
      Release srv ;;
      ret success
  end.

(** *** The export table *)

Inductive Op : Type :=
| CallHasRSRSupport
| CallGetRSRState
| CallSetRSR (isEnabled : bool)
| CallGetRSRSharpness
| CallSetRSRSharpness (sharpness : Z)
| CallHasAFMFSupport
| CallGetAFMFState
| CallSetAFMFState (isEnabled : bool)
| CallHasAntiLagSupport
| CallGetAntiLagState
| CallSetAntiLagState (isEnabled : bool).

(** What an export hands back: a [bool] or an [int]. *)
Inductive Value : Type :=
| VBool (b : bool)
| VInt (n : Z).

Definition fmap {A B : Type} (f : A -> B) (m : M A) : M B :=
  a <- m ;; ret (f a).

Definition call (op : Op) : M Value :=
  match op with
  | CallHasRSRSupport => fmap VBool HasRSRSupport
  | CallGetRSRState => fmap VBool GetRSRState
  | CallSetRSR b => fmap VBool (SetRSR b)
  | CallGetRSRSharpness => fmap VInt GetRSRSharpness
  | CallSetRSRSharpness n => fmap VBool (SetRSRSharpness n)
  | CallHasAFMFSupport => fmap VBool HasAFMFSupport
  | CallGetAFMFState => fmap VBool GetAFMFState
  | CallSetAFMFState b => fmap VBool (SetAFMFState b)
  | CallHasAntiLagSupport => fmap VBool HasAntiLagSupport
  | CallGetAntiLagState => fmap VBool GetAntiLagState
  | CallSetAntiLagState b => fmap VBool (SetAntiLagState b)
  end.

(** A sequence of calls made one after the other by the host process. *)
Fixpoint run (ops : list Op) : M (list Value) :=
  match ops with
  | [] => ret []
  | op :: rest =>
      r <- call op ;;
      rs <- run rest ;;
      ret (r :: rs)
  end.

End Wrapper.

(** ** What the fake vendor layer counts, and the vocabulary of the spec *)

Module Spec.
Import ADLX Wrapper.

(** Handles of kind [k] handed out (a getter answered with a non-null
    handle) and handles of kind [k] released. *)
Definition is_acquire (k : HandleKind) (e : Event) : bool :=
  match e with
  | EGet k' _ nonnull => HandleKind_eqb k k' && nonnull
  | _ => false
  end.

Definition is_release (k : HandleKind) (e : Event) : bool :=
  match e with
  | ERelease k' => HandleKind_eqb k k'
  | _ => false
  end.

Definition acquired (k : HandleKind) (tr : list Event) : nat :=
  List.length (filter (is_acquire k) tr).

Definition released (k : HandleKind) (tr : list Event) : nat :=
  List.length (filter (is_release k) tr).

(** Invocations of the root-initialization step, and those that succeeded. *)
Definition is_initialize (e : Event) : bool :=
  match e with EInitialize _ => true | _ => false end.

Definition is_successful_initialize (e : Event) : bool :=
  match e with EInitialize res => ADLX_SUCCEEDED res | _ => false end.

Definition initializations (tr : list Event) : nat :=
  List.length (filter is_initialize tr).

Definition successful_initializations (tr : list Event) : nat :=
  List.length (filter is_successful_initialize tr).

(** Attempts to obtain a feature handle, whatever their outcome. *)
Definition is_feature_acquisition (e : Event) : bool :=
  match e with EGet (KFeature _) _ _ => true | _ => false end.

Definition feature_acquisitions (tr : list Event) : nat :=
  List.length (filter is_feature_acquisition tr).

(** The value an export reports on failure. *)
Definition failure_sentinel (op : Op) : Value :=
  match op with
  | CallGetRSRSharpness => VInt (-1)
  | _ => VBool false
  end.

(** The exports that read: the support checks and the getters. *)
Definition is_getter (op : Op) : bool :=
  match op with
  | CallSetRSR _ | CallSetRSRSharpness _
  | CallSetAFMFState _ | CallSetAntiLagState _ => false
  | _ => true
  end.

(** The Get<Feature>State exports, with the interface each one queries. *)
Definition state_getter (op : Op) : option Feature :=
  match op with
  | CallGetRSRState => Some RadeonSuperResolution
  | CallGetAFMFState => Some FrameRateTargetControl
  | CallGetAntiLagState => Some AntiLag
  | _ => None
  end.

(** A call gets past its own argument check. *)
Definition reaches_vendor (op : Op) : bool :=
  match op with
  | CallSetRSRSharpness n => negb ((n <? 0) || (n >? 100))
  | _ => true
  end.

(** The root is available to a call: already initialized, or the
    initialization the call triggers succeeds. *)
Definition root_available (w : World) : bool :=
  g_bInitialized w || ADLX_SUCCEEDED (v_Initialize (vendor w)).

(** The adapter list can be retrieved, and it has a first adapter. *)
Definition list_obtainable (v : Vendor) : bool :=
  ADLX_SUCCEEDED (v_GetGPUs v) && isNonNull (v_gpus v).

Definition first_adapter (v : Vendor) : ptr IADLXGPU :=
  match v_gpus v with
  | Some gpus => nth_error gpus 0
  | None => nullptr
  end.

Definition adapter_obtainable (v : Vendor) : bool :=
  ADLX_SUCCEEDED (v_At v) && isNonNull (first_adapter v).

(** The vendor reports no adapters: the list is empty or cannot be
    retrieved. *)
Definition no_adapters (v : Vendor) : bool :=
  negb (list_obtainable v) ||
  match v_gpus v with
  | Some [] => true
  | _ => false
  end.

(** The walk of [Get3DGraphicsServices] reaches the caller with a service,
    by the tests the code makes: the list and the first adapter need a
    success status and a non-null handle, the 3D-settings service only a
    non-null handle (the status of [Get3DSettingsServices] is not examined). *)
Definition services_resolve (w : World) : bool :=
  root_available w && v_system (vendor w) &&
  list_obtainable (vendor w) && adapter_obtainable (vendor w) &&
  v_services (vendor w).

(** The handle of feature [f] is obtainable from the service. *)
Definition feature_obtainable (f : Feature) (v : Vendor) : bool :=
  ADLX_SUCCEEDED (fs_status (feature v f)) && fs_handle (feature v f).

(** The full chain down to feature [f] resolves, by the tests the code
    makes. *)
Definition chain_resolves (f : Feature) (w : World) : bool :=
  services_resolve w && feature_obtainable f (vendor w).

(** The sharpness of RSR can be read: the chain down to the RSR interface
    resolves and the sharpness query succeeds. *)
Definition sharpness_readable (w : World) : bool :=
  chain_resolves RadeonSuperResolution w &&
  ADLX_SUCCEEDED (v_GetSharpness (vendor w)).

(** A handle is obtainable, in the words of the spec, when its getter
    yields neither a null handle nor a failed status.  For the 3D-settings
    service that asks for more than the code tests. *)
Definition service_obtainable (v : Vendor) : bool :=
  ADLX_SUCCEEDED (v_Get3DSettingsServices v) && v_services v.

(** Every handle of the chain down to feature [f] is obtainable: the root,
    the system, the adapter list, the first adapter, the 3D-settings service
    and the feature interface. *)
Definition chain_obtainable (f : Feature) (w : World) : bool :=
  root_available w && v_system (vendor w) &&
  list_obtainable (vendor w) && adapter_obtainable (vendor w) &&
  service_obtainable (vendor w) && feature_obtainable f (vendor w).

(** [Get3DSettingsServices] does not hand out a service together with a
    failed status. *)
Definition service_status_matches_handle (v : Vendor) : bool :=
  ADLX_SUCCEEDED (v_Get3DSettingsServices v) || negb (v_services v).

(** The calls of a sequence that get past their own argument check. *)
Definition attempts (ops : list Op) : nat :=
  List.length (filter reaches_vendor ops).

(** The vendor never hands out an adapter list or an adapter together with
    a failed status. *)
Definition no_handle_on_failure (v : Vendor) : bool :=
  (ADLX_SUCCEEDED (v_GetGPUs v) || negb (isNonNull (v_gpus v))) &&
  (ADLX_SUCCEEDED (v_At v) || negb (isNonNull (first_adapter v))).

(** Two vendors that differ at most in the adapters they enumerate. *)
Definition same_but_adapters (v1 v2 : Vendor) : Prop :=
  v_Initialize v1 = v_Initialize v2 /\
  v_system v1 = v_system v2 /\
  v_GetGPUs v1 = v_GetGPUs v2 /\
  v_At v1 = v_At v2 /\
  v_Get3DSettingsServices v1 = v_Get3DSettingsServices v2 /\
  v_services v1 = v_services v2 /\
  v_rsr v1 = v_rsr v2 /\
  v_frtc v1 = v_frtc v2 /\
  v_antilag v1 = v_antilag v2 /\
  v_afmf v1 = v_afmf v2 /\
  v_GetSharpness v1 = v_GetSharpness v2 /\
  v_SetSharpness v1 = v_SetSharpness v2 /\
  v_sharpness v1 = v_sharpness v2.

(** *** A healthy vendor, and the faults induced on it *)

Definition present (enabled : bool) : FeatureState :=
  {| fs_status := ADLX_OK; fs_handle := true;
     fs_IsEnabled := ADLX_OK; fs_SetEnabled := ADLX_OK;
     fs_enabled := enabled |}.

Definition absent : FeatureState :=
  {| fs_status := ADLX_NOT_SUPPORTED; fs_handle := false;
     fs_IsEnabled := ADLX_FAIL; fs_SetEnabled := ADLX_FAIL;
     fs_enabled := false |}.

Definition gpu0 : IADLXGPU := {| UniqueId := 29775; Name := "Radeon 780M" |}.
Definition gpu1 : IADLXGPU := {| UniqueId := 5567; Name := "Radeon RX 7600" |}.

(** RSR present, enabled, sharpness 80; frame rate target control enabled;
    Anti-Lag present and off; fluid motion frames absent. *)
Definition healthy : Vendor :=
  {| v_Initialize := ADLX_OK; v_system := true;
     v_GetGPUs := ADLX_OK; v_gpus := Some [gpu0]; v_At := ADLX_OK;
     v_Get3DSettingsServices := ADLX_OK; v_services := true;
     v_rsr := present true; v_frtc := present true;
     v_antilag := present false; v_afmf := absent;
     v_GetSharpness := ADLX_OK; v_SetSharpness := ADLX_OK;
     v_sharpness := 80 |}.

Definition with_Initialize (res : ADLX_RESULT) (v : Vendor) : Vendor :=
  {| v_Initialize := res; v_system := v_system v;
     v_GetGPUs := v_GetGPUs v; v_gpus := v_gpus v; v_At := v_At v;
     v_Get3DSettingsServices := v_Get3DSettingsServices v;
     v_services := v_services v;
     v_rsr := v_rsr v; v_frtc := v_frtc v; v_antilag := v_antilag v;
     v_afmf := v_afmf v;
     v_GetSharpness := v_GetSharpness v; v_SetSharpness := v_SetSharpness v;
     v_sharpness := v_sharpness v |}.

Definition with_GetGPUs (res : ADLX_RESULT) (gpus : ptr IADLXGPUList)
  (v : Vendor) : Vendor :=
  {| v_Initialize := v_Initialize v; v_system := v_system v;
     v_GetGPUs := res; v_gpus := gpus; v_At := v_At v;
     v_Get3DSettingsServices := v_Get3DSettingsServices v;
     v_services := v_services v;
     v_rsr := v_rsr v; v_frtc := v_frtc v; v_antilag := v_antilag v;
     v_afmf := v_afmf v;
     v_GetSharpness := v_GetSharpness v; v_SetSharpness := v_SetSharpness v;
     v_sharpness := v_sharpness v |}.

Definition with_At (res : ADLX_RESULT) (v : Vendor) : Vendor :=
  {| v_Initialize := v_Initialize v; v_system := v_system v;
     v_GetGPUs := v_GetGPUs v; v_gpus := v_gpus v; v_At := res;
     v_Get3DSettingsServices := v_Get3DSettingsServices v;
     v_services := v_services v;
     v_rsr := v_rsr v; v_frtc := v_frtc v; v_antilag := v_antilag v;
     v_afmf := v_afmf v;
     v_GetSharpness := v_GetSharpness v; v_SetSharpness := v_SetSharpness v;
     v_sharpness := v_sharpness v |}.

Definition failing_write (s : FeatureState) : FeatureState :=
  {| fs_status := fs_status s; fs_handle := fs_handle s;
     fs_IsEnabled := fs_IsEnabled s; fs_SetEnabled := ADLX_FAIL;
     fs_enabled := fs_enabled s |}.

Definition failing_query (s : FeatureState) : FeatureState :=
  {| fs_status := fs_status s; fs_handle := fs_handle s;
     fs_IsEnabled := ADLX_FAIL; fs_SetEnabled := fs_SetEnabled s;
     fs_enabled := fs_enabled s |}.

End Spec.


(** ** Which interface each export goes through *)

Module Exports.
Import ADLX Wrapper Spec.

(** The feature getter an export calls on the 3D-settings service. *)
Definition interface_of (op : Op) : Feature :=
  match op with
  | CallHasRSRSupport | CallGetRSRState | CallSetRSR _
  | CallGetRSRSharpness | CallSetRSRSharpness _ => RadeonSuperResolution
  | CallHasAFMFSupport | CallGetAFMFState | CallSetAFMFState _ =>
      FrameRateTargetControl
  | CallHasAntiLagSupport | CallGetAntiLagState | CallSetAntiLagState _ =>
      AntiLag
  end.

(** The Has<Feature>Support exports. *)
Definition support_check (op : Op) : bool :=
  match op with
  | CallHasRSRSupport | CallHasAFMFSupport | CallHasAntiLagSupport => true
  | _ => false
  end.

(** The exports that write an enabled flag, with the value they write. *)
Definition state_setter (op : Op) : option bool :=
  match op with
  | CallSetRSR b | CallSetAFMFState b | CallSetAntiLagState b => Some b
  | _ => None
  end.

(** The getter that reads back what a setter wrote. *)
Definition getter_of (op : Op) : Op :=
  match op with
  | CallSetRSR _ => CallGetRSRState
  | CallSetAFMFState _ => CallGetAFMFState
  | CallSetAntiLagState _ => CallGetAntiLagState
  | CallSetRSRSharpness _ => CallGetRSRSharpness
  | _ => op
  end.

Definition sharpness_setter (op : Op) : bool :=
  match op with
  | CallSetRSRSharpness _ => true
  | _ => false
  end.

(** Writes the vendor layer received, accepted or not. *)
Definition is_write (e : Event) : bool :=
  match e with
  | ESetEnabled _ _ | ESetSharpness _ => true
  | _ => false
  end.

Definition writes (tr : list Event) : nat :=
  List.length (filter is_write tr).

Definition with_Get3DSettingsServices (res : ADLX_RESULT) (v : Vendor)
  : Vendor :=
  {| v_Initialize := v_Initialize v; v_system := v_system v;
     v_GetGPUs := v_GetGPUs v; v_gpus := v_gpus v; v_At := v_At v;
     v_Get3DSettingsServices := res;
     v_services := v_services v;
     v_rsr := v_rsr v; v_frtc := v_frtc v; v_antilag := v_antilag v;
     v_afmf := v_afmf v;
     v_GetSharpness := v_GetSharpness v; v_SetSharpness := v_SetSharpness v;
     v_sharpness := v_sharpness v |}.

End Exports.

(** ** The process lifecycle hook *)

Module Lifecycle.
Import ADLX Wrapper Spec.

(** The notification codes the loader passes to [DllMain] (their values in
    the platform headers). *)
Definition DLL_PROCESS_DETACH : Z := 0.
Definition DLL_PROCESS_ATTACH : Z := 1.
Definition DLL_THREAD_ATTACH : Z := 2.
Definition DLL_THREAD_DETACH : Z := 3.

(** The process as the loader sees it: the world of the exports, and the
    number of times the vendor root has been torn down. *)
Record Process : Type := {
  world : World;
  terminations : nat
}.

Definition loaded (v : Vendor) : Process :=
  {| world := start v; terminations := 0 |}.

(** [g_ADLXHelper.Terminate()] *)
Definition Terminate (p : Process) : Process :=
  {| world := world p; terminations := S (terminations p) |}.

Definition reset_g_bInitialized (p : Process) : Process :=
  {| world := {| vendor := vendor (world p); g_bInitialized := false;
                 calls := calls (world p) |};
     terminations := terminations p |}.

(** [DllMain]: tear the root down on process detach if it was initialized;
    every other notification is ignored.  Always returns TRUE. *)
Definition DllMain (ul_reason_for_call : Z) (p : Process) : bool * Process :=
  let p' :=
    if ul_reason_for_call =? DLL_PROCESS_ATTACH then p
    else if ul_reason_for_call =? DLL_PROCESS_DETACH then
      if g_bInitialized (world p)
      then reset_g_bInitialized (Terminate p)
      else p
    else if (ul_reason_for_call =? DLL_THREAD_ATTACH)
            || (ul_reason_for_call =? DLL_THREAD_DETACH) then p
    else p in
  (true, p').

(** What the host does with the library: call an export, or deliver a
    notification. *)
Inductive Action : Type :=
| Export (op : Op)
| Notify (ul_reason_for_call : Z).

Definition step (a : Action) (p : Process) : Process :=
  match a with
  | Export op =>
      {| world := snd (call op (world p)); terminations := terminations p |}
  | Notify reason => snd (DllMain reason p)
  end.

Fixpoint host (acts : list Action) (p : Process) : Process :=
  match acts with
  | [] => p
  | a :: rest => host rest (step a p)
  end.

(** Every successful initialization of the root has been matched by a
    teardown, except for one still outstanding while the flag is set. *)
Definition paired (p : Process) : Prop :=
  successful_initializations (calls (world p)) =
  (terminations p + if g_bInitialized (world p) then 1 else 0)%nat.

(** The notifications that are not a process detach. *)
Definition ignored (a : Action) : bool :=
  match a with
  | Export _ => false
  | Notify reason => negb (reason =? DLL_PROCESS_DETACH)
  end.

End Lifecycle.

(** ** Verification *)

Import ADLX Wrapper Spec.

(** *** Proof automation: one case split per branch the source takes *)

Lemma ADLX_FAILED_negb (r : ADLX_RESULT) :
  ADLX_FAILED r = negb (ADLX_SUCCEEDED r).
Proof. destruct r; reflexivity. Qed.

Ltac unfold_wrapper :=
  unfold call, fmap, HasRSRSupport, GetRSRState, SetRSR, GetRSRSharpness,
    SetRSRSharpness, HasAFMFSupport, GetAFMFState, SetAFMFState,
    HasAntiLagSupport, GetAntiLagState, SetAntiLagState,
    Get3DGraphicsServices, InitializeADLX, ReleaseIfNonNull,
    GetRadeonSuperResolution, GetFrameRateTargetControl, GetAntiLag, GetFeature,
    IsEnabled, SetEnabled, GetSharpness, SetSharpness, Release,
    Get3DSettingsServices, At, GetGPUs, GetSystemServices, Initialize,
    read_g_bInitialized, write_g_bInitialized, mutate, ask, log, bind, ret in *.

Ltac unfold_spec :=
  unfold sharpness_readable, no_handle_on_failure,
    chain_resolves, services_resolve, feature_obtainable, no_adapters,
    adapter_obtainable, first_adapter, list_obtainable, root_available in *.

Ltac case_step :=
  match goal with
  | |- context [ADLX_FAILED ?r] => rewrite (ADLX_FAILED_negb r)
  | |- context [if ADLX_SUCCEEDED ?r then _ else _] =>
      is_var r; destruct (ADLX_SUCCEEDED r) eqn:?
  | |- context [if negb (ADLX_SUCCEEDED ?r) then _ else _] =>
      is_var r; destruct (ADLX_SUCCEEDED r) eqn:?
  | |- context [if (?n <? 0) || (?n >? 100) then _ else _] =>
      destruct ((n <? 0) || (n >? 100)) eqn:?
  | |- context [if ?b then _ else _] => is_var b; destruct b
  | |- context [match ?x with _ => _ end] => is_var x; destruct x
  end.

Ltac crunch :=
  unfold_wrapper; repeat (cbn -[ADLX_SUCCEEDED] in *; try case_step).

Ltac open_world w :=
  let v := fresh "v" in
  destruct w as [v ? ?];
  destruct v as [? ? ? ? ? ? ? [] [] [] [] ? ? ?].

Ltac finish := try reflexivity; try discriminate; try congruence.

(** *** What one call leaves behind *)

(** The answer of a call is a function of the vendor state and of whether
    the root is available; the log and the flag itself do not matter. *)
Lemma call_result_depends (op : Op) (w1 w2 : World) :
  vendor w1 = vendor w2 ->
  root_available w1 = root_available w2 ->
  fst (call op w1) = fst (call op w2).
Proof.
  destruct w1 as [v1 g1 t1], w2 as [v2 g2 t2]; cbn [vendor].
  intros <-; unfold root_available; cbn [vendor g_bInitialized].
  destruct v1 as [? ? ? ? ? ? ? [] [] [] [] ? ? ?].
  intros H; destruct op; crunch; finish.
Qed.

(** A call never changes what the vendor answers to initialization. *)
Lemma call_preserves_Initialize (op : Op) (w : World) :
  v_Initialize (vendor (snd (call op w))) = v_Initialize (vendor w).
Proof. open_world w; destruct op; crunch; finish. Qed.

(** The flag after a call: set exactly when the call reached the vendor
    layer with the root available. *)
Lemma call_flag (op : Op) (w : World) :
  g_bInitialized (snd (call op w)) =
  if reaches_vendor op then root_available w else g_bInitialized w.
Proof.
  unfold root_available; open_world w; destruct op; crunch; finish.
Qed.

Lemma call_root_available (op : Op) (w : World) :
  root_available (snd (call op w)) = root_available w.
Proof.
  unfold root_available at 1.
  rewrite call_flag, call_preserves_Initialize.
  unfold root_available.
  destruct (reaches_vendor op), (g_bInitialized w),
    (ADLX_SUCCEEDED (v_Initialize (vendor w))); reflexivity.
Qed.

(** The reading exports leave the vendor state alone. *)
Lemma getter_preserves_vendor (op : Op) (w : World) :
  is_getter op = true -> vendor (snd (call op w)) = vendor w.
Proof.
  open_world w; destruct op; cbn [is_getter]; intros H; try discriminate H;
    crunch; finish.
Qed.

(** A writing export that reports failure has not changed the vendor state. *)
Lemma failed_setter_preserves_vendor (op : Op) (w : World) :
  is_getter op = false -> fst (call op w) = VBool false ->
  vendor (snd (call op w)) = vendor w.
Proof.
  open_world w; destruct op; cbn [is_getter]; intros H; try discriminate H;
    crunch; finish.
Qed.

(** *** Argument check of SetRSRSharpness *)

(** C3: for every integer outside [0,100], [SetRSRSharpness] returns false
    and leaves the world exactly as it found it: the flag is not touched and
    the log of the vendor layer gains no call (no initialization, no handle
    acquisition, no write). *)
Theorem SetRSRSharpness_rejects_out_of_range (sharpness : Z) (w : World) :
  sharpness < 0 \/ sharpness > 100 ->
  SetRSRSharpness sharpness w = (false, w).
Proof.
  intros H; unfold SetRSRSharpness.
  replace ((sharpness <? 0) || (sharpness >? 100)) with true; [reflexivity|].
  symmetry; apply orb_true_iff.
  destruct H as [H | H]; [left; apply Z.ltb_lt | right; apply Z.gtb_gt]; lia.
Qed.

Lemma SetRSRSharpness_rejects_out_of_range_witness :
  SetRSRSharpness 101 (start healthy) = (false, start healthy) /\
  SetRSRSharpness (-1) (start healthy) = (false, start healthy).
Proof.
  split.
  - apply (SetRSRSharpness_rejects_out_of_range 101 (start healthy)); right; lia.
  - apply (SetRSRSharpness_rejects_out_of_range (-1) (start healthy)); left; lia.
Defined.

(** *** Reading twice *)

(** C8: a support check or a getter called twice in a row, with nothing in
    between, answers the same both times, whatever the vendor state, the
    flag and the log it starts from. *)
Theorem getter_twice_same_result (op : Op) (w : World) :
  is_getter op = true ->
  fst (call op (snd (call op w))) = fst (call op w).
Proof.
  intros H; apply call_result_depends.
  - apply getter_preserves_vendor, H.
  - apply call_root_available.
Qed.

Lemma getter_twice_same_result_witness :
  fst (call CallGetRSRSharpness (snd (call CallGetRSRSharpness (start healthy))))
  = fst (call CallGetRSRSharpness (start healthy)).
Proof.
  apply (getter_twice_same_result CallGetRSRSharpness (start healthy)).
  reflexivity.
Defined.

(** *** The enabled query *)

(** C9: a Get<Feature>State export answers false, its default, both when
    the handle chain does not resolve and when the chain resolves but the
    enabled query itself fails; the status of the query is not looked at. *)
Theorem state_getter_swallows_query_failure (op : Op) (f : Feature) (w : World) :
  state_getter op = Some f ->
  chain_resolves f w = false \/
  ADLX_SUCCEEDED (fs_IsEnabled (feature (vendor w) f)) = false ->
  fst (call op w) = VBool false.
Proof.
  unfold_spec; open_world w.
  destruct op; cbn [state_getter]; intros E; try discriminate E;
    injection E as <-; cbn -[ADLX_SUCCEEDED]; intros [H | H];
    crunch; finish.
Qed.

Lemma state_getter_swallows_query_failure_witness :
  fst (call CallGetRSRState
         (start (set_feature RadeonSuperResolution
                   (failing_query (present true)) healthy)))
  = VBool false.
Proof.
  apply (state_getter_swallows_query_failure CallGetRSRState
           RadeonSuperResolution).
  - reflexivity.
  - right; reflexivity.
Defined.

(** *** No adapters *)

(** C6: when the vendor reports no adapters (the adapter list is empty or
    cannot be retrieved), every export answers its failure value (false, or
    -1 for [GetRSRSharpness]) and the call makes no attempt to obtain a
    feature handle. *)
Theorem no_adapters_failure_sentinel (op : Op) (w : World) :
  no_adapters (vendor w) = true ->
  fst (call op w) = failure_sentinel op /\
  feature_acquisitions (calls (snd (call op w))) = feature_acquisitions (calls w).
Proof.
  unfold feature_acquisitions; unfold_spec; open_world w.
  cbn -[ADLX_SUCCEEDED]; intros H.
  destruct op; crunch; split; finish.
Qed.

Lemma no_adapters_failure_sentinel_witness :
  fst (call CallGetRSRSharpness (start (with_GetGPUs ADLX_OK (Some []) healthy)))
  = VInt (-1) /\
  feature_acquisitions
    (calls (snd (call CallGetRSRSharpness
                   (start (with_GetGPUs ADLX_OK (Some []) healthy)))))
  = feature_acquisitions [].
Proof.
  apply (no_adapters_failure_sentinel CallGetRSRSharpness
           (start (with_GetGPUs ADLX_OK (Some []) healthy))).
  reflexivity.
Defined.

(** *** The first adapter is only tested for presence *)

(** C10: the 3D-settings service is asked of the system object, and the
    adapter obtained by [At(0)] is only compared with null before it is
    released.  So two vendor states that differ at most in which adapters
    they enumerate, each with a first adapter, give every export the same
    answer, and the vendor layer sees the same calls. *)
Theorem result_independent_of_adapters
  (op : Op) (v1 v2 : Vendor) (g : bool) (tr : list Event) :
  same_but_adapters v1 v2 ->
  isNonNull (first_adapter v1) = true ->
  isNonNull (first_adapter v2) = true ->
  let w1 := {| vendor := v1; g_bInitialized := g; calls := tr |} in
  let w2 := {| vendor := v2; g_bInitialized := g; calls := tr |} in
  fst (call op w1) = fst (call op w2) /\
  calls (snd (call op w1)) = calls (snd (call op w2)).
Proof.
  unfold same_but_adapters, first_adapter.
  destruct v1 as [? ? ? gpus1 ? ? ? [] [] [] [] ? ? ?], v2; cbn.
  intros (?&?&?&?&?&?&?&?&?&?&?&?&?) Hfirst1 Hfirst2; subst.
  destruct gpus1 as [[|a1 l1]|]; try discriminate Hfirst1.
  match type of Hfirst2 with
  | isNonNull match ?x with _ => _ end = true =>
      destruct x as [[|a2 l2]|]; try discriminate Hfirst2
  end.
  destruct op; crunch; split; finish.
Qed.

Lemma result_independent_of_adapters_witness :
  fst (call CallGetAntiLagState (start healthy)) =
  fst (call CallGetAntiLagState
         (start (with_GetGPUs ADLX_OK (Some [gpu1; gpu0]) healthy))) /\
  calls (snd (call CallGetAntiLagState (start healthy))) =
  calls (snd (call CallGetAntiLagState
                (start (with_GetGPUs ADLX_OK (Some [gpu1; gpu0]) healthy)))).
Proof.
  apply (result_independent_of_adapters CallGetAntiLagState healthy
           (with_GetGPUs ADLX_OK (Some [gpu1; gpu0]) healthy) false []).
  - repeat split.
  - reflexivity.
  - reflexivity.
Defined.

(** *** A write that fails *)

(** C7: a Set export that reports failure has left the vendor-side feature
    state as it was, and every support check or getter called next answers
    what it would have answered before the call.  This covers
    [SetAntiLagState(true)] against a vendor that fails the write, followed
    by [GetAntiLagState]. *)
Theorem failed_set_changes_nothing (op : Op) (w : World) :
  is_getter op = false ->
  fst (call op w) = VBool false ->
  vendor (snd (call op w)) = vendor w /\
  forall q : Op, is_getter q = true ->
    fst (call q (snd (call op w))) = fst (call q w).
Proof.
  intros Hset Hfail.
  pose proof (failed_setter_preserves_vendor op w Hset Hfail) as Hv.
  split; [exact Hv|].
  intros q _; apply call_result_depends;
    [exact Hv | apply call_root_available].
Qed.

Lemma failed_set_changes_nothing_witness :
  let w := start (set_feature AntiLag (failing_write (present false)) healthy) in
  fst (call (CallSetAntiLagState true) w) = VBool false /\
  vendor (snd (call (CallSetAntiLagState true) w)) = vendor w /\
  fst (call CallGetAntiLagState (snd (call (CallSetAntiLagState true) w)))
  = VBool false.
Proof.
  intros w.
  assert (Hfail : fst (call (CallSetAntiLagState true) w) = VBool false)
    by reflexivity.
  destruct (failed_set_changes_nothing (CallSetAntiLagState true) w
              eq_refl Hfail) as [Hv Hq].
  split; [exact Hfail|]; split; [exact Hv|].
  rewrite (Hq CallGetAntiLagState eq_refl); reflexivity.
Defined.

(** *** Root initialization across a sequence of calls *)

Lemma run_cons (op : Op) (rest : list Op) (w : World) :
  snd (run (op :: rest) w) = snd (run rest (snd (call op w))).
Proof.
  cbn [run]; unfold bind at 1.
  destruct (call op w) as [r w']; cbn [snd]; unfold bind.
  destruct (run rest w') as [rs w'']; reflexivity.
Qed.

(** A call invokes the initialization step when it reaches the vendor
    layer with the flag still unset, and not otherwise. *)
Lemma call_initializations (op : Op) (w : World) :
  initializations (calls (snd (call op w))) =
  ((if reaches_vendor op && negb (g_bInitialized w) then 1 else 0)
   + initializations (calls w))%nat.
Proof.
  unfold initializations; open_world w; destruct op; crunch; finish.
Qed.

Lemma call_successful_initializations (op : Op) (w : World) :
  successful_initializations (calls (snd (call op w))) =
  ((if reaches_vendor op && negb (g_bInitialized w)
       && ADLX_SUCCEEDED (v_Initialize (vendor w)) then 1 else 0)
   + successful_initializations (calls w))%nat.
Proof.
  unfold successful_initializations; open_world w; destruct op; crunch;
    repeat match goal with H : ADLX_SUCCEEDED _ = _ |- _ => rewrite H end;
    finish.
Qed.

Lemma attempts_cons (op : Op) (rest : list Op) :
  attempts (op :: rest) =
  ((if reaches_vendor op then 1 else 0) + attempts rest)%nat.
Proof.
  unfold attempts; cbn [filter]; destruct (reaches_vendor op); reflexivity.
Qed.

Lemma run_initializations (ops : list Op) : forall w : World,
  initializations (calls (snd (run ops w))) =
  (initializations (calls w) +
   if g_bInitialized w then 0
   else if ADLX_SUCCEEDED (v_Initialize (vendor w))
        then Nat.min 1 (attempts ops)
        else attempts ops)%nat.
Proof.
  induction ops as [|op rest IH]; intros w.
  - cbn; destruct (g_bInitialized w), (ADLX_SUCCEEDED (v_Initialize (vendor w)));
      lia.
  - rewrite run_cons, IH, call_initializations, call_flag,
      call_preserves_Initialize, attempts_cons.
    unfold root_available.
    destruct (reaches_vendor op), (g_bInitialized w),
      (ADLX_SUCCEEDED (v_Initialize (vendor w))); cbn [andb negb orb]; lia.
Qed.

Lemma run_successful_initializations (ops : list Op) : forall w : World,
  successful_initializations (calls (snd (run ops w))) =
  (successful_initializations (calls w) +
   if g_bInitialized w then 0
   else if ADLX_SUCCEEDED (v_Initialize (vendor w))
        then Nat.min 1 (attempts ops)
        else 0)%nat.
Proof.
  induction ops as [|op rest IH]; intros w.
  - cbn; destruct (g_bInitialized w), (ADLX_SUCCEEDED (v_Initialize (vendor w)));
      lia.
  - rewrite run_cons, IH, call_successful_initializations, call_flag,
      call_preserves_Initialize, attempts_cons.
    unfold root_available.
    destruct (reaches_vendor op), (g_bInitialized w),
      (ADLX_SUCCEEDED (v_Initialize (vendor w))); cbn [andb negb orb]; lia.
Qed.

(** C4, as stated, fails: against a vendor whose initialization fails, two
    calls in a row invoke the initialization step twice. *)
Lemma initialization_repeated_after_failure :
  let tr := calls (snd (run [CallHasRSRSupport; CallGetRSRState]
                         (start (with_Initialize ADLX_FAIL healthy)))) in
  initializations tr = 2%nat /\ ~ (initializations tr <= 1)%nat.
Proof. cbv zeta; split; [reflexivity | cbn; lia]. Qed.

(** C4, amended: across any sequence of calls made by a freshly loaded
    process, at most one invocation of the initialization step succeeds, and
    a vendor whose initialization succeeds sees it invoked at most once;
    a vendor whose initialization fails sees it invoked again by every call
    that gets past its own argument check. *)
Theorem initialization_succeeds_at_most_once (v : Vendor) (ops : list Op) :
  let tr := calls (snd (run ops (start v))) in
  (successful_initializations tr <= 1)%nat /\
  if ADLX_SUCCEEDED (v_Initialize v)
  then (initializations tr <= 1)%nat
  else initializations tr = attempts ops.
Proof.
  cbv zeta.
  rewrite run_successful_initializations, run_initializations.
  cbn [start vendor g_bInitialized calls initializations
       successful_initializations filter List.length].
  destruct (ADLX_SUCCEEDED (v_Initialize v)); lia.
Qed.

(** *** The sharpness getter *)

Lemma GetRSRSharpness_value (w : World) :
  fst (GetRSRSharpness w) =
  if sharpness_readable w then v_sharpness (vendor w) else -1.
Proof. unfold_spec; open_world w; crunch; finish. Qed.

(** C5, as stated, fails: the getter hands on whatever value the vendor
    reports, so a vendor reporting 150 makes it return 150. *)
Lemma GetRSRSharpness_not_range_checked :
  let r := fst (GetRSRSharpness (start (set_sharpness 150 healthy))) in
  r = 150 /\ ~ (0 <= r <= 100 \/ r = -1).
Proof. cbv zeta; split; [reflexivity | cbn; lia]. Qed.

Lemma chain_obtainable_resolves (f : Feature) (w : World) :
  service_status_matches_handle (vendor w) = true ->
  chain_obtainable f w = chain_resolves f w.
Proof.
  unfold service_status_matches_handle, chain_obtainable, chain_resolves,
    services_resolve, service_obtainable.
  destruct (ADLX_SUCCEEDED (v_Get3DSettingsServices (vendor w))),
    (v_services (vendor w)); cbn [orb negb andb]; intros H;
    try discriminate H; reflexivity.
Qed.

(** C5, amended: for every vendor state whose reported sharpness lies in
    [0,100], [GetRSRSharpness] returns an integer in [0,100] or -1; and,
    where [Get3DSettingsServices] does not hand out a service together with
    a failed status, it returns -1 exactly when some handle of the chain is
    unobtainable (a null handle or a failed status) or the sharpness query
    fails. *)
Theorem GetRSRSharpness_range (w : World) :
  0 <= v_sharpness (vendor w) <= 100 ->
  let r := fst (GetRSRSharpness w) in
  (0 <= r <= 100 \/ r = -1) /\
  (service_status_matches_handle (vendor w) = true ->
   (r = -1 <->
    chain_obtainable RadeonSuperResolution w = false \/
    ADLX_SUCCEEDED (v_GetSharpness (vendor w)) = false)).
Proof.
  intros H; cbv zeta; rewrite GetRSRSharpness_value.
  unfold sharpness_readable; split.
  - destruct (chain_resolves RadeonSuperResolution w &&
              ADLX_SUCCEEDED (v_GetSharpness (vendor w))); lia.
  - intros Hs; rewrite (chain_obtainable_resolves _ w Hs).
    destruct (chain_resolves RadeonSuperResolution w),
      (ADLX_SUCCEEDED (v_GetSharpness (vendor w))); cbn [andb]; split;
      try (intros; lia); try (intros [E | E]; discriminate E); auto.
Qed.

Lemma GetRSRSharpness_range_witness :
  let r := fst (GetRSRSharpness (start healthy)) in
  (0 <= r <= 100 \/ r = -1) /\
  (r = -1 <->
   chain_obtainable RadeonSuperResolution (start healthy) = false \/
   ADLX_SUCCEEDED (v_GetSharpness (vendor (start healthy))) = false).
Proof.
  destruct (GetRSRSharpness_range (start healthy)) as [Hrange Hiff].
  - cbn; lia.
  - split; [exact Hrange | apply Hiff; reflexivity].
Defined.

(** *** Handles acquired and released *)

(** Where the vendor hands out no adapter list and no adapter together with
    a failed status, a call releases what it acquired, for every handle
    type and on every path. *)
Lemma call_balanced (op : Op) (k : HandleKind) (w : World) :
  no_handle_on_failure (vendor w) = true ->
  (acquired k (calls (snd (call op w))) + released k (calls w) =
   released k (calls (snd (call op w))) + acquired k (calls w))%nat.
Proof.
  unfold acquired, released; unfold_spec; open_world w.
  cbn -[ADLX_SUCCEEDED]; intros H.
  destruct k as [| | |[]]; destruct op; crunch; finish; lia.
Qed.

(** C2 fails on two exits of [Get3DGraphicsServices].  When [GetGPUs]
    answers a failed status together with a non-null list, the function
    returns at once and the list is never released; when [At(0)] answers a
    failed status together with a non-null adapter, the list is released
    and the adapter is not. *)
Theorem adapter_handles_leak_on_failed_status :
  let w1 := snd (call CallHasRSRSupport
                   (start (with_GetGPUs ADLX_FAIL (Some [gpu0]) healthy))) in
  let w2 := snd (call CallHasRSRSupport (start (with_At ADLX_FAIL healthy))) in
  (acquired KGPUList (calls w1) = 1 /\ released KGPUList (calls w1) = 0)%nat /\
  (acquired KGPUList (calls w2) = 1 /\ released KGPUList (calls w2) = 1)%nat /\
  (acquired KGPU (calls w2) = 1 /\ released KGPU (calls w2) = 0)%nat.
Proof. cbv zeta; repeat split; reflexivity. Qed.

(** *** The AFMF exports *)

(** The three AFMF exports never consult the fluid-motion-frames interface
    of the vendor: whatever it holds, they answer the same. *)
Lemma AFMF_exports_ignore_AMDFluidMotionFrames
  (s : FeatureState) (b : bool) (v : Vendor) (g : bool) (tr : list Event) :
  let w := {| vendor := v; g_bInitialized := g; calls := tr |} in
  let w' := {| vendor := set_feature AMDFluidMotionFrames s v;
               g_bInitialized := g; calls := tr |} in
  fst (HasAFMFSupport w') = fst (HasAFMFSupport w) /\
  fst (GetAFMFState w') = fst (GetAFMFState w) /\
  fst (SetAFMFState b w') = fst (SetAFMFState b w).
Proof.
  destruct v as [? ? ? ? ? ? ? [] [] [] [] ? ? ?], s.
  cbv zeta; repeat split; crunch; finish.
Qed.

(** C1 fails: the AFMF exports obtain their handle through
    [GetFrameRateTargetControl], so they report and change the frame rate
    target control feature.  Against a vendor where fluid motion frames is
    absent and off while frame rate target control is present and on,
    [HasAFMFSupport] and [GetAFMFState] answer true, and
    [SetAFMFState(false)] switches frame rate target control off and leaves
    the fluid-motion-frames state as it was. *)
Theorem AFMF_exports_use_FrameRateTargetControl :
  let w := start healthy in
  let w' := snd (SetAFMFState false w) in
  feature_obtainable AMDFluidMotionFrames healthy = false /\
  fs_enabled (v_afmf healthy) = false /\
  fst (HasAFMFSupport w) = true /\
  fst (GetAFMFState w) = true /\
  fst (SetAFMFState false w) = true /\
  fs_enabled (v_frtc healthy) = true /\
  fs_enabled (v_frtc (vendor w')) = false /\
  v_afmf (vendor w') = v_afmf healthy /\
  In (EGet (KFeature FrameRateTargetControl) ADLX_OK true) (calls w') /\
  In (ESetEnabled FrameRateTargetControl false) (calls w').
Proof. cbv zeta; cbn; repeat split; auto 12. Qed.

(** ** Further properties of the exports *)

Import Exports Lifecycle.

Ltac settle :=
  finish;
  repeat match goal with
         | |- context [ADLX_SUCCEEDED ?r] => destruct (ADLX_SUCCEEDED r)
         end;
  cbn in *; finish.

(** X1: a support check answers true exactly when the whole chain, from the
    root down to the feature interface it asks for, resolves. *)
Theorem support_check_answer (op : Op) (w : World) :
  support_check op = true ->
  fst (call op w) = VBool (chain_resolves (interface_of op) w).
Proof.
  unfold_spec; open_world w.
  destruct op; cbn [support_check]; intros H; try discriminate H;
    crunch; settle.
Qed.

Lemma support_check_answer_witness :
  fst (call CallHasAntiLagSupport (start healthy)) = VBool true /\
  fst (call CallHasRSRSupport
         (start (set_feature RadeonSuperResolution absent healthy)))
  = VBool false.
Proof.
  split.
  - apply (support_check_answer CallHasAntiLagSupport (start healthy)).
    reflexivity.
  - apply (support_check_answer CallHasRSRSupport
             (start (set_feature RadeonSuperResolution absent healthy))).
    reflexivity.
Defined.

(** X2: a Get<Feature>State export answers the vendor's enabled flag when
    the chain resolves and the enabled query succeeds, and false otherwise. *)
Theorem state_getter_answer (op : Op) (f : Feature) (w : World) :
  state_getter op = Some f ->
  fst (call op w) =
  VBool (chain_resolves f w &&
         ADLX_SUCCEEDED (fs_IsEnabled (feature (vendor w) f)) &&
         fs_enabled (feature (vendor w) f)).
Proof.
  unfold_spec; open_world w.
  destruct op; cbn [state_getter]; intros E; try discriminate E;
    injection E as <-; crunch; settle.
Qed.

Lemma state_getter_answer_witness :
  fst (call CallGetRSRState (start healthy)) = VBool true.
Proof.
  apply (state_getter_answer CallGetRSRState RadeonSuperResolution
           (start healthy)).
  reflexivity.
Defined.

(** X3: a Set<Feature> export reports success exactly when the chain
    resolves and the vendor accepts the write; on success the vendor state
    differs from the one before only in the enabled flag of that interface,
    which holds the value passed; otherwise the vendor state is the same. *)
Theorem state_setter_effect (op : Op) (b : bool) (w : World) :
  state_setter op = Some b ->
  let f := interface_of op in
  let ok := chain_resolves f w &&
            ADLX_SUCCEEDED (fs_SetEnabled (feature (vendor w) f)) in
  fst (call op w) = VBool ok /\
  vendor (snd (call op w)) =
  if ok then set_feature f (fs_set_enabled b (feature (vendor w) f)) (vendor w)
  else vendor w.
Proof.
  unfold_spec; open_world w.
  destruct op; cbn [state_setter]; intros E; try discriminate E;
    injection E as <-; cbv zeta; crunch; split; settle.
Qed.

Lemma state_setter_effect_witness :
  fst (call (CallSetAntiLagState true) (start healthy)) = VBool true /\
  fs_enabled (v_antilag (vendor (snd (call (CallSetAntiLagState true)
                                        (start healthy))))) = true.
Proof.
  destruct (state_setter_effect (CallSetAntiLagState true) true
              (start healthy) eq_refl) as [Hr Hv].
  split; [exact Hr|]. rewrite Hv. reflexivity.
Defined.

Lemma in_range_passes_check (n : Z) :
  0 <= n <= 100 -> (n <? 0) || (n >? 100) = false.
Proof.
  intros H; apply orb_false_iff; split.
  - apply Z.ltb_ge; lia.
  - rewrite Z.gtb_ltb; apply Z.ltb_ge; lia.
Qed.

Lemma passes_check_in_range (n : Z) :
  (n <? 0) || (n >? 100) = false -> 0 <= n <= 100.
Proof.
  intros H; apply orb_false_iff in H as [H1 H2].
  apply Z.ltb_ge in H1. rewrite Z.gtb_ltb in H2. apply Z.ltb_ge in H2. lia.
Qed.

(** X4: for a value in [0,100], bounds included, [SetRSRSharpness] reports
    success exactly when the chain down to the RSR interface resolves and
    the vendor accepts the write; on success the vendor holds that value as
    sharpness and nothing else has changed, otherwise the vendor state is
    the same. *)
Theorem SetRSRSharpness_in_range (sharpness : Z) (w : World) :
  0 <= sharpness <= 100 ->
  let ok := chain_resolves RadeonSuperResolution w &&
            ADLX_SUCCEEDED (v_SetSharpness (vendor w)) in
  fst (SetRSRSharpness sharpness w) = ok /\
  vendor (snd (SetRSRSharpness sharpness w)) =
  if ok then set_sharpness sharpness (vendor w) else vendor w.
Proof.
  intros H; cbv zeta; unfold SetRSRSharpness.
  rewrite (in_range_passes_check sharpness H).
  unfold_spec; open_world w; crunch; split; settle.
Qed.

Lemma SetRSRSharpness_in_range_witness :
  (fst (SetRSRSharpness 0 (start healthy)) = true /\
   v_sharpness (vendor (snd (SetRSRSharpness 0 (start healthy)))) = 0) /\
  (fst (SetRSRSharpness 100 (start healthy)) = true /\
   v_sharpness (vendor (snd (SetRSRSharpness 100 (start healthy)))) = 100).
Proof.
  split.
  - destruct (SetRSRSharpness_in_range 0 (start healthy)) as [Hr Hv];
      [lia|]. split; [exact Hr | rewrite Hv; reflexivity].
  - destruct (SetRSRSharpness_in_range 100 (start healthy)) as [Hr Hv];
      [lia|]. split; [exact Hr | rewrite Hv; reflexivity].
Defined.

(** X5: after a Set<Feature> export has reported success, the matching
    Get<Feature>State export answers the value that was set, provided the
    vendor's enabled query succeeds. *)
Theorem set_then_get_state (op : Op) (b : bool) (w : World) :
  state_setter op = Some b ->
  fst (call op w) = VBool true ->
  ADLX_SUCCEEDED (fs_IsEnabled (feature (vendor w) (interface_of op))) = true ->
  fst (call (getter_of op) (snd (call op w))) = VBool b.
Proof.
  open_world w.
  destruct op; cbn [state_setter]; intros E; try discriminate E;
    injection E as <-; cbn -[ADLX_SUCCEEDED call]; intros Hok Hq;
    revert Hok; crunch; intros Hok; settle.
Qed.

Lemma set_then_get_state_witness :
  fst (call CallGetRSRState (snd (call (CallSetRSR false) (start healthy))))
  = VBool false.
Proof.
  apply (set_then_get_state (CallSetRSR false) false (start healthy));
    reflexivity.
Defined.

(** X6: [SetRSRSharpness] can only report success for a value in [0,100],
    and after it has, [GetRSRSharpness] returns that value, provided the
    vendor's sharpness query succeeds. *)
Theorem set_then_get_sharpness (sharpness : Z) (w : World) :
  fst (SetRSRSharpness sharpness w) = true ->
  0 <= sharpness <= 100 /\
  (ADLX_SUCCEEDED (v_GetSharpness (vendor w)) = true ->
   fst (GetRSRSharpness (snd (SetRSRSharpness sharpness w))) = sharpness).
Proof.
  unfold SetRSRSharpness at 1 2.
  destruct ((sharpness <? 0) || (sharpness >? 100)) eqn:Hrange.
  - cbn; discriminate.
  - intros Hok; split; [apply passes_check_in_range, Hrange|].
    intros Hq; revert Hok; open_world w; cbn -[ADLX_SUCCEEDED] in Hq.
    crunch; intros Hok; settle.
Qed.

Lemma set_then_get_sharpness_witness :
  0 <= 35 <= 100 /\
  fst (GetRSRSharpness (snd (SetRSRSharpness 35 (start healthy)))) = 35.
Proof.
  destruct (set_then_get_sharpness 35 (start healthy) eq_refl) as [Hr Hg].
  split; [exact Hr | apply Hg; reflexivity].
Defined.

(** X7: an export changes neither the enabled flag of a feature other than
    the one whose interface it goes through, nor what the vendor answers for
    that feature (status and handle of its getter, status of its enabled
    query and write); the exports that do not write an enabled flag change
    them for no feature.  In particular no export ever changes the enabled
    flag of AMD Fluid Motion Frames.  The sharpness value of RSR is not
    among these: [SetRSRSharpness] changes it. *)
Theorem export_leaves_other_features (op : Op) (f : Feature) (w : World) :
  f <> interface_of op \/ state_setter op = None ->
  feature (vendor (snd (call op w))) f = feature (vendor w) f.
Proof.
  open_world w.
  destruct op, f; cbn [interface_of state_setter]; intros [H | H];
    try congruence; crunch; settle.
Qed.

Lemma export_leaves_other_features_witness :
  feature (vendor (snd (call (CallSetAFMFState false) (start healthy))))
    AMDFluidMotionFrames
  = feature healthy AMDFluidMotionFrames.
Proof.
  apply (export_leaves_other_features (CallSetAFMFState false)
           AMDFluidMotionFrames (start healthy)).
  left; discriminate.
Defined.

(** X8: the vendor's sharpness value is changed by no export other than
    [SetRSRSharpness]. *)
Theorem sharpness_changed_only_by_its_setter (op : Op) (w : World) :
  sharpness_setter op = false ->
  v_sharpness (vendor (snd (call op w))) = v_sharpness (vendor w).
Proof.
  open_world w.
  destruct op; cbn [sharpness_setter]; intros H; try discriminate H;
    crunch; settle.
Qed.

Lemma sharpness_changed_only_by_its_setter_witness :
  v_sharpness (vendor (snd (call (CallSetRSR false) (start healthy)))) = 80.
Proof.
  apply (sharpness_changed_only_by_its_setter (CallSetRSR false)
           (start healthy)).
  reflexivity.
Defined.

(** X9: the 3D-settings-service handle and the feature handles never leak:
    whatever the vendor answers, failed statuses with non-null handles
    included, each call releases as many of them as it acquired. *)
Theorem service_and_feature_handles_balanced
  (op : Op) (f : Feature) (w : World) :
  (acquired K3DSettingsServices (calls (snd (call op w)))
   + released K3DSettingsServices (calls w) =
   released K3DSettingsServices (calls (snd (call op w)))
   + acquired K3DSettingsServices (calls w))%nat /\
  (acquired (KFeature f) (calls (snd (call op w)))
   + released (KFeature f) (calls w) =
   released (KFeature f) (calls (snd (call op w)))
   + acquired (KFeature f) (calls w))%nat.
Proof.
  unfold acquired, released; open_world w.
  destruct f; destruct op; crunch; split; finish; lia.
Qed.

(** X10: when the walk to the 3D-settings service stops short, by the
    tests the code makes (initialization fails, the system is null, the
    adapter list or the first adapter is null or comes with a failed status,
    or the service handle is null), every export answers its failure value,
    makes no attempt to obtain a feature handle, sends no write, and leaves
    the vendor state as it was.  The status of [Get3DSettingsServices] is
    not among these tests. *)
Theorem unresolved_services_failure (op : Op) (w : World) :
  services_resolve w = false ->
  fst (call op w) = failure_sentinel op /\
  feature_acquisitions (calls (snd (call op w))) = feature_acquisitions (calls w) /\
  writes (calls (snd (call op w))) = writes (calls w) /\
  vendor (snd (call op w)) = vendor w.
Proof.
  unfold feature_acquisitions, writes; unfold_spec; open_world w.
  cbn -[ADLX_SUCCEEDED]; intros H.
  destruct op; crunch; repeat split; settle.
Qed.

Lemma unresolved_services_failure_witness :
  let w := start (with_Initialize ADLX_BAD_VER healthy) in
  fst (call (CallSetRSR true) w) = VBool false /\
  feature_acquisitions (calls (snd (call (CallSetRSR true) w))) = 0%nat /\
  writes (calls (snd (call (CallSetRSR true) w))) = 0%nat /\
  vendor (snd (call (CallSetRSR true) w)) = vendor w.
Proof.
  intros w.
  apply (unresolved_services_failure (CallSetRSR true) w).
  reflexivity.
Defined.

(** X11: when the root is not initialized and initialization fails, a call
    that gets past its own argument check invokes the initialization step
    and nothing else of the vendor layer, leaves the flag unset, and
    answers its failure value. *)
Theorem failed_initialization_stops_call (op : Op) (w : World) :
  reaches_vendor op = true ->
  root_available w = false ->
  call op w =
  (failure_sentinel op,
   {| vendor := vendor w; g_bInitialized := false;
      calls := EInitialize (v_Initialize (vendor w)) :: calls w |}).
Proof.
  unfold_spec; open_world w; cbn -[ADLX_SUCCEEDED].
  intros Hr Ha; apply orb_false_iff in Ha as [-> Ha].
  destruct op; cbn [reaches_vendor] in Hr;
    try (apply negb_true_iff in Hr); crunch; finish.
Qed.

Lemma failed_initialization_stops_call_witness :
  let w := start (with_Initialize ADLX_ADL_INIT_ERROR healthy) in
  call CallGetRSRSharpness w =
  (VInt (-1),
   {| vendor := vendor w; g_bInitialized := false;
      calls := [EInitialize ADLX_ADL_INIT_ERROR] |}).
Proof.
  intros w.
  apply (failed_initialization_stops_call CallGetRSRSharpness w);
    reflexivity.
Defined.

(** X12: the status [Get3DSettingsServices] reports is never looked at:
    only the handle it hands out counts.  Whatever that status is, every
    export gives the same answer and leaves the same feature states. *)
Theorem Get3DSettingsServices_status_ignored
  (res : ADLX_RESULT) (op : Op) (v : Vendor) (g : bool) (tr : list Event) :
  let w := {| vendor := v; g_bInitialized := g; calls := tr |} in
  let w' := {| vendor := with_Get3DSettingsServices res v;
               g_bInitialized := g; calls := tr |} in
  fst (call op w') = fst (call op w) /\
  (forall f, feature (vendor (snd (call op w'))) f
             = feature (vendor (snd (call op w))) f) /\
  v_sharpness (vendor (snd (call op w'))) = v_sharpness (vendor (snd (call op w))).
Proof.
  destruct v as [? ? ? ? ? ? ? [] [] [] [] ? ? ?].
  cbv zeta; destruct op; crunch; repeat split; try (intros []); settle.
Qed.

(** X13: a call sends at most one write to the vendor layer: exactly one
    when it is a Set export that got past its argument check and whose
    chain resolves, none otherwise (so none for a support check or a
    getter). *)
Theorem one_write_per_call (op : Op) (w : World) :
  writes (calls (snd (call op w))) =
  ((if negb (is_getter op) && reaches_vendor op
        && chain_resolves (interface_of op) w then 1 else 0)
   + writes (calls w))%nat.
Proof.
  unfold writes; unfold_spec; open_world w.
  destruct op; crunch; settle.
Qed.

Lemma run_cons_answers (op : Op) (rest : list Op) (w : World) :
  fst (run (op :: rest) w) =
  fst (call op w) :: fst (run rest (snd (call op w))).
Proof.
  cbn [run]; unfold bind at 1.
  destruct (call op w) as [r w']; cbn [fst snd]; unfold bind.
  destruct (run rest w') as [rs w'']; reflexivity.
Qed.

(** X14: a sequence of support checks and getters leaves the vendor state
    as it was, and each of them answers what it would have answered if it
    had been called alone at the start of the sequence. *)
Theorem getters_do_not_interfere (ops : list Op) (w : World) :
  forallb is_getter ops = true ->
  vendor (snd (run ops w)) = vendor w /\
  fst (run ops w) = map (fun op => fst (call op w)) ops.
Proof.
  revert w; induction ops as [|op rest IH]; intros w H.
  - split; reflexivity.
  - cbn [forallb] in H; apply andb_true_iff in H as [Hop Hrest].
    pose proof (getter_preserves_vendor op w Hop) as Hv.
    pose proof (call_root_available op w) as Ha.
    destruct (IH (snd (call op w)) Hrest) as [IHv IHr].
    rewrite run_cons, run_cons_answers, IHv, IHr; cbn [map].
    split; [exact Hv|].
    f_equal; apply map_ext; intros q.
    apply call_result_depends; assumption.
Qed.

Lemma getters_do_not_interfere_witness :
  fst (run [CallHasRSRSupport; CallGetRSRSharpness; CallGetAntiLagState]
         (start healthy))
  = [VBool true; VInt 80; VBool false].
Proof.
  destruct (getters_do_not_interfere
              [CallHasRSRSupport; CallGetRSRSharpness; CallGetAntiLagState]
              (start healthy) eq_refl) as [_ Hr].
  rewrite Hr; reflexivity.
Defined.

(** *** The lifecycle hook *)

Lemma step_paired (a : Action) (p : Process) :
  paired p -> paired (step a p).
Proof.
  unfold paired; destruct a as [op | reason]; cbn [step world terminations].
  - rewrite call_successful_initializations, call_flag.
    unfold root_available.
    destruct (reaches_vendor op), (g_bInitialized (world p)),
      (ADLX_SUCCEEDED (v_Initialize (vendor (world p))));
      cbn [andb negb orb]; lia.
  - unfold DllMain; cbn [snd].
    destruct (reason =? DLL_PROCESS_ATTACH); [easy|].
    destruct (reason =? DLL_PROCESS_DETACH).
    + destruct (g_bInitialized (world p)) eqn:E;
        cbn [reset_g_bInitialized Terminate world terminations calls
             g_bInitialized]; rewrite ?E; lia.
    + destruct ((reason =? DLL_THREAD_ATTACH) || (reason =? DLL_THREAD_DETACH));
        easy.
Qed.

Lemma host_paired (acts : list Action) : forall p : Process,
  paired p -> paired (host acts p).
Proof.
  induction acts as [|a rest IH]; intros p H; [exact H|].
  cbn [host]; apply IH, step_paired, H.
Qed.

Lemma host_app (acts1 acts2 : list Action) : forall p : Process,
  host (acts1 ++ acts2) p = host acts2 (host acts1 p).
Proof.
  induction acts1 as [|a rest IH]; intros p; [reflexivity|].
  cbn [app host]; apply IH.
Qed.

(** X15: however the host interleaves calls of the exports with loader
    notifications, starting from a freshly loaded library, the successful
    initializations of the vendor root are matched one to one by teardowns,
    except for one still outstanding while the flag is set.  So the root is
    never torn down more often than it was brought up, and once a process
    detach has been delivered last, every successful initialization has
    been torn down and the flag is unset. *)
Theorem initialize_terminate_paired (v : Vendor) (acts : list Action) :
  let p := host acts (loaded v) in
  let q := host (acts ++ [Notify DLL_PROCESS_DETACH]) (loaded v) in
  successful_initializations (calls (world p)) =
    (terminations p + if g_bInitialized (world p) then 1 else 0)%nat /\
  g_bInitialized (world q) = false /\
  terminations q = successful_initializations (calls (world q)).
Proof.
  cbv zeta.
  assert (Hp : paired (host acts (loaded v)))
    by (apply host_paired; reflexivity).
  split; [exact Hp|].
  rewrite host_app; cbn [host step].
  unfold paired in Hp; revert Hp.
  generalize (host acts (loaded v)); intros p Hp.
  unfold DllMain; cbn [Z.eqb DLL_PROCESS_ATTACH DLL_PROCESS_DETACH snd].
  destruct (g_bInitialized (world p)) eqn:E;
    cbn [reset_g_bInitialized Terminate world terminations calls
         g_bInitialized]; rewrite ?E; split; try reflexivity; lia.
Qed.

Lemma ignored_step (a : Action) (p : Process) :
  ignored a = true -> step a p = p.
Proof.
  destruct a as [op | reason]; cbn [ignored]; [discriminate|].
  intros H; apply negb_true_iff in H.
  cbn [step]; unfold DllMain; cbn [snd]; rewrite H.
  destruct (reason =? DLL_PROCESS_ATTACH); [reflexivity|].
  destruct ((reason =? DLL_THREAD_ATTACH) || (reason =? DLL_THREAD_DETACH));
    reflexivity.
Qed.

(** X16: a notification other than the process detach (process attach,
    thread attach, thread detach, or a code the hook does not know) changes
    nothing: a host sequence ends in the same state as the sequence with
    all such notifications taken out. *)
Theorem ignored_notifications_change_nothing
  (acts : list Action) (p : Process) :
  host acts p = host (filter (fun a => negb (ignored a)) acts) p.
Proof.
  revert p; induction acts as [|a rest IH]; intros p; [reflexivity|].
  cbn [host filter]; destruct (ignored a) eqn:E; cbn [negb].
  - rewrite (ignored_step a p E); apply IH.
  - cbn [host]; apply IH.
Qed.
